(** * SwiftToCxx-DivisionFunction: a Swift throwing function called from C++

    The repository holds one Swift function, [division], that throws a
    user-defined error, the C++ wrapper the Swift compiler emits for it (shown
    in README.md), and two C++ clients: Example.cpp, compiled with C++
    exceptions, and its twin compiled with [-fno-exceptions], which receives a
    [Swift::Expected<float>].

    The development follows that layout:
    - [Swift]: Example.swift ([Int] arithmetic, [Float(_:)], [DivByZero],
      [division]);
    - [Cxx]: the bridging header as far as the repository shows or uses it
      ([Swift::Error], [Swift::Expected], the [division] wrapper) and the two
      [main] functions. *)

From Stdlib Require Import ZArith Bool List String Lia.
Import ListNotations.

Local Open Scope Z_scope.

(* ====================================================================== *)
(** ** Example.swift *)
(* ====================================================================== *)

Module Swift.

(** *** [Int]

    Swift's [Int] is the 64-bit two's-complement integer of the target
    (arm64 in the README's build commands).  An [Int] is a [Z] inside
    [Int_min .. Int_max]. *)

Definition Int_bitWidth : Z := 64.
Definition Int_min : Z := - 2 ^ (Int_bitWidth - 1).
Definition Int_max : Z := 2 ^ (Int_bitWidth - 1) - 1.

Definition Int_ok (n : Z) : Prop := Int_min <= n <= Int_max.

(** [a / b] on [Int].  The operator traps ([None]) when the divisor is zero
    and when the quotient is not representable, which happens only for
    [Int.min / -1]; otherwise it is the quotient rounded toward zero. *)
Definition Int_div (a b : Z) : option Z :=
  if b =? 0 then None
  else if (a =? Int_min) && (b =? -1) then None
  else Some (Z.quot a b).

(** *** [Float]

    [Float] is IEEE 754 binary32.  The only floats this program builds come
    from [Float(_: Int)], and every such float is an integer; a [Float] is
    represented by the exact number it denotes. *)

Record Float : Set := mkFloat { Float_value : Z }.

Definition Float_significandBitCount : Z := 23.

(** The integers binary32 holds exactly: a significand of at most 24 bits
    (the 23 stored ones and the implicit leading one) times a power of two
    (the exponent of a converted [Int] never leaves the binary32 range). *)
Definition binary32_integer (v : Z) : Prop :=
  exists m e, Z.abs m < 2 ^ (Float_significandBitCount + 1) /\ 0 <= e /\ v = m * 2 ^ e.

(** [Float(n)] for [n : Int]: the closest representable value, ties going to
    the even significand. *)
Definition Float_init (n : Z) : Float :=
  let m := Z.abs n in
  let k := Z.log2 m in
  if k <=? Float_significandBitCount then mkFloat n
  else
    let sh := k - Float_significandBitCount in
    let q := Z.shiftr m sh in
    let r := Z.land m (Z.ones sh) in
    let half := Z.shiftl 1 (sh - 1) in
    let q' := if (half <? r) || ((half =? r) && Z.odd q) then q + 1 else q in
    mkFloat (Z.sgn n * Z.shiftl q' sh).

(** *** [DivByZero] *)

Inductive DivByZero : Set :=
  | divisorIsZero
  | bothAreZero.

Definition DivByZero_eqb (x y : DivByZero) : bool :=
  match x, y with
  | divisorIsZero, divisorIsZero => true
  | bothAreZero, bothAreZero => true
  | _, _ => false
  end.

(** [print(self)] writes the case name and a newline to standard output;
    [getMessage] returns nothing, its effect is the line printed. *)
Definition DivByZero_description (e : DivByZero) : string :=
  match e with
  | divisorIsZero => "divisorIsZero"
  | bothAreZero => "bothAreZero"
  end.

Definition getMessage (e : DivByZero) : list string :=
  [DivByZero_description e].

(** *** [division] *)

(** How a call of a throwing Swift function ends: it returns, it throws, or
    the process stops at a runtime trap. *)
Inductive Outcome (T E : Type) : Type :=
  | Returned (v : T)
  | Thrown (e : E)
  | Trapped.

Arguments Returned {T E} v.
Arguments Thrown {T E} e.
Arguments Trapped {T E}.

Definition division (a b : Z) : Outcome Float DivByZero :=
  if (a =? 0) && (b =? 0) then
    Thrown bothAreZero
  else if b =? 0 then
    Thrown divisorIsZero
  else
    match Int_div a b with
    | Some q => Returned (Float_init q)
    | None => Trapped
    end.

(** The same body read as a relation, one rule per way through the
    [if]/[else if]/[else] chain; a rule's premises are the conditions that
    were tested on the way to it. *)
Inductive division_runs (a b : Z) : Outcome Float DivByZero -> Prop :=
  | run_bothAreZero :
      a = 0 -> b = 0 ->
      division_runs a b (Thrown bothAreZero)
  | run_divisorIsZero :
      ~ (a = 0 /\ b = 0) -> b = 0 ->
      division_runs a b (Thrown divisorIsZero)
  | run_quotient q :
      ~ (a = 0 /\ b = 0) -> b <> 0 ->
      Int_div a b = Some q ->
      division_runs a b (Returned (Float_init q))
  | run_overflow :
      ~ (a = 0 /\ b = 0) -> b <> 0 ->
      Int_div a b = None ->
      division_runs a b Trapped.

End Swift.

(* ====================================================================== *)
(** ** The C++ side: functions.h and its two clients *)
(* ====================================================================== *)

Module Cxx.

(** *** Running C++ code

    A piece of C++ either completes with a value, leaves by a thrown
    [Swift::Error], or the process is stopped ([abort], a failed [assert], a
    Swift runtime trap).  What it wrote to standard output is kept next to the
    completion. *)

(** One write to standard output: a [printf] with its format and its [%f]
    arguments, or a line written by Swift's [print]. *)
Inductive Output : Set :=
  | Printf (format : string) (args : list Swift.Float)
  | Print (line : string).

(** Modelled from the spec: what the [opaqueError] pointer points to, which
    no file of the repository declares.  It is the spec's tagged carrier
    contents, a domain identifier (the runtime metadata of the error's type)
    next to an opaque handle (the enum case, by its position in the
    declaration). *)
Record ErrorBox : Set := mkErrorBox {
  box_metadata : string;
  box_case : nat
}.

(** Modelled from the spec: the Opaque Error Carrier [Swift::Error], whose
    class is declared in the generated header and not in the repository.  It
    is a handle to exactly one error value with the runtime type information
    of its domain; it is built from the non-null [opaqueError] pointer. *)
Record Error : Set := mkError { opaqueValue : ErrorBox }.

Inductive Completion (A : Type) : Type :=
  | Normal (a : A)
  | Throw (e : Error)
  | Abort.

Arguments Normal {A} a.
Arguments Throw {A} e.
Arguments Abort {A}.

Definition Exec (A : Type) : Type := (list Output * Completion A)%type.

Definition ret {A} (a : A) : Exec A := ([], Normal a).

Definition bind {A B} (m : Exec A) (k : A -> Exec B) : Exec B :=
  match m with
  | (out, Normal a) => let (out', c) := k a in (out ++ out', c)
  | (out, Throw e) => (out, Throw e)
  | (out, Abort) => (out, Abort)
  end.

Notation "x <- m ;; k" := (bind m (fun x => k))
  (at level 61, m at next level, right associativity).
Notation "m ;;; k" := (bind m (fun _ => k))
  (at level 61, right associativity).

Definition throw {A} (e : Error) : Exec A := ([], Throw e).

Definition abort {A} : Exec A := ([], Abort).

(** [try { body } catch (Swift::Error& e) { handler }] *)
Definition try_catch {A} (body : Exec A) (handler : Error -> Exec A) : Exec A :=
  match body with
  | (out, Throw e) => let (out', c) := handler e in (out ++ out', c)
  | done => done
  end.

Definition printf (format : string) (args : list Swift.Float) : Exec unit :=
  ([Printf format args], Normal tt).

Definition assert (cond : bool) : Exec unit :=
  if cond then ret tt else abort.

(** The call of a method that completes as [c] and leaves its receiver as
    [self']: the caller goes on with both. *)
Definition method {A S} (r : Completion A * S) : Exec (A * S) :=
  match r with
  | (Normal a, self') => ret (a, self')
  | (Throw e, _) => throw e
  | (Abort, _) => abort
  end.

(** *** Error domains *)

(** Modelled from the spec: an error domain, that is a Swift type conforming
    to [Error] and exposed to C++ (the conformance is the runtime's, not the
    repository's).  It has a domain identifier, and its cases go into a handle
    and come back out of it unchanged. *)
Class SwiftError (D : Type) : Type := {
  getTypeMetadata : string;
  caseIndex : D -> nat;
  caseOfIndex : nat -> option D;
  caseOfIndex_caseIndex : forall d, caseOfIndex (caseIndex d) = Some d
}.

Arguments getTypeMetadata D {_}.

#[export] Instance DivByZero_SwiftError : SwiftError Swift.DivByZero := {|
  getTypeMetadata := "Functions.DivByZero";
  caseIndex := fun e =>
    match e with Swift.divisorIsZero => 0%nat | Swift.bothAreZero => 1%nat end;
  caseOfIndex := fun i =>
    match i with
    | 0%nat => Some Swift.divisorIsZero
    | 1%nat => Some Swift.bothAreZero
    | _ => None
    end;
  caseOfIndex_caseIndex := fun d =>
    match d with Swift.divisorIsZero => eq_refl | Swift.bothAreZero => eq_refl end
|}.

(** The spec's "unrelated domain": one more error enum of one case, exposed
    from another module, to ask a carrier for a domain it does not hold. *)
Inductive UnrelatedDomain : Set := unrelatedCase.

#[export] Instance UnrelatedDomain_SwiftError : SwiftError UnrelatedDomain := {|
  getTypeMetadata := "Other.UnrelatedDomain";
  caseIndex := fun _ => 0%nat;
  caseOfIndex := fun i => match i with 0%nat => Some unrelatedCase | _ => None end;
  caseOfIndex_caseIndex := fun d => match d with unrelatedCase => eq_refl end
|}.

(** [throw e] in Swift allocates the box the caller's error slot will point
    to. *)
Definition box_error {D} `{SwiftError D} (e : D) : ErrorBox :=
  {| box_metadata := getTypeMetadata D; box_case := caseIndex e |}.

(** *** [Swift::Optional<T>] *)

Definition Optional (T : Type) : Type := option T.

Definition isSome {T} (o : Optional T) : bool :=
  match o with Some _ => true | None => false end.

(** [get()] hands out the wrapped value; the clients call it after asserting
    [isSome()], and on an empty optional it is Swift's forced unwrap of
    [nil]. *)
Definition get {T} (o : Optional T) : Exec T :=
  match o with Some v => ret v | None => abort end.

(** *** [Swift::Error::as<T>()] *)

(** Modelled from the spec: [as<DomainType>()] compares the domain the
    carrier recorded at run time with the requested one, and only when they
    are the same reads the handle as a value of that domain; otherwise the
    optional is absent.  The result comes with the carrier as the call leaves
    it. *)
Definition Error_as (D : Type) `{SwiftError D} (self : Error)
    : Completion (Optional D) * Error :=
  let box := opaqueValue self in
  if String.eqb (box_metadata box) (getTypeMetadata D)
  then (Normal (caseOfIndex (box_case box)), self)
  else (Normal None, self).

(** *** [Swift::Expected<T>] *)

(** Modelled from the spec: the Result container [Swift::Expected<T>], whose
    class is declared in the generated header and not in the repository.  It
    holds either a value or a [Swift::Error] (README: "never
    simultaneously"); [has_value] always answers, [value] requires a value and
    [error] requires an error, and a call that breaks the requirement stops
    the program. *)
Inductive Expected (T : Type) : Type :=
  | Expected_value (v : T)
  | Expected_error (e : Error).

Arguments Expected_value {T} v.
Arguments Expected_error {T} e.

Definition has_value {T} (self : Expected T) : bool :=
  match self with Expected_value _ => true | Expected_error _ => false end.

Definition value {T} (self : Expected T) : Exec T :=
  match self with Expected_value v => ret v | Expected_error _ => abort end.

Definition error {T} (self : Expected T) : Exec Error :=
  match self with Expected_value _ => abort | Expected_error e => ret e end.

(** A result holds a value, or an error, when the matching accessor hands
    one out. *)
Definition holds_value {T} (self : Expected T) : Prop :=
  exists v, value self = ret v.

Definition holds_error {T} (self : Expected T) : Prop :=
  exists e, error self = ret e.

Definition holds_exactly_one {T} (self : Expected T) : Prop :=
  (has_value self = true /\ holds_value self /\ ~ holds_error self) \/
  (has_value self = false /\ holds_error self /\ ~ holds_value self).

(** *** The generated wrapper of [division] (README.md, lines 44-56) *)

(** [__cpp_exceptions]: whether the client is compiled with C++ exceptions. *)
Inductive Mode : Set :=
  | Exceptions
  | NoExceptions.

(** [Swift::ThrowingResult<T>] is [T] with exceptions and
    [Swift::Expected<T>] without. *)
Definition ThrowingResult (mode : Mode) (T : Type) : Type :=
  match mode with
  | Exceptions => T
  | NoExceptions => Expected T
  end.

(** [SWIFT_RETURN_THUNK(T, v)] is [v] with exceptions and
    [Swift::Expected<T>(v)] without. *)
Definition SWIFT_RETURN_THUNK (mode : Mode) {T : Type} (v : T) : ThrowingResult mode T :=
  match mode with
  | Exceptions => v
  | NoExceptions => Expected_value v
  end.

Definition SWIFT_RETURN_THUNK_error (mode : Mode) {T : Type} (e : Error)
    : Exec (ThrowingResult mode T) :=
  match mode with
  | Exceptions => throw e
  | NoExceptions => ret (Expected_error e)
  end.

Definition nullptr {A} : option A := None.

Section Wrapper.

(** What the return register holds when the Swift function has thrown: the
    calling convention leaves it unspecified. *)
Variable indeterminate : Swift.Float.

(** [_impl::$s9Functions8divisionySfSi_SitKF(a, b, _ctx, &opaqueError)]: the
    Swift function under its C calling convention.  It returns the float and
    the contents of the error slot after the call; the slot is written only
    when the function throws.  A Swift trap stops the process. *)
Definition division_impl (a b : Z) (_ctx : option unit) (opaqueError : option ErrorBox)
    : Exec (Swift.Float * option ErrorBox) :=
  match Swift.division a b with
  | Swift.Returned v => ret (v, opaqueError)
  | Swift.Thrown e => ret (indeterminate, Some (box_error e))
  | Swift.Trapped => abort
  end.

Definition division (mode : Mode) (a b : Z) : Exec (ThrowingResult mode Swift.Float) :=
  let opaqueError : option ErrorBox := nullptr in
  let _ctx : option unit := nullptr in
  r <- division_impl a b _ctx opaqueError ;;
  let '(returnValue, opaqueError) := r in
  match opaqueError with
  | Some p => SWIFT_RETURN_THUNK_error mode (mkError p)
  | None => ret (SWIFT_RETURN_THUNK mode returnValue)
  end.

(** [errorVal.getMessage()] calls back into Swift, which prints the case. *)
Definition getMessage (e : Swift.DivByZero) : Exec unit :=
  (map Print (Swift.getMessage e), Normal tt).

(** [main] of src/Example.cpp, compiled with exceptions. *)
Definition main_exceptions : Exec Z :=
  printf "Good example:\n" [] ;;;
  try_catch
    (result <- division Exceptions 1 0 ;;
     printf "result = %f\n" [result])
    (fun e =>
       r <- method (Error_as Swift.DivByZero e) ;;
       let errorOpt := fst r in
       assert (isSome errorOpt) ;;;
       errorVal <- get errorOpt ;;
       assert (Swift.DivByZero_eqb errorVal Swift.divisorIsZero) ;;;
       getMessage errorVal) ;;;
  try_catch
    (result <- division Exceptions 0 0 ;;
     printf "result = %f\n" [result])
    (fun e =>
       r <- method (Error_as Swift.DivByZero e) ;;
       let errorOpt := fst r in
       assert (isSome errorOpt) ;;;
       errorVal <- get errorOpt ;;
       assert (Swift.DivByZero_eqb errorVal Swift.bothAreZero) ;;;
       getMessage errorVal) ;;;
  try_catch
    (result <- division Exceptions 4 2 ;;
     printf "result = %f\n" [result])
    (fun e =>
       r <- method (Error_as Swift.DivByZero e) ;;
       let errorOpt := fst r in
       assert (isSome errorOpt) ;;;
       errorVal <- get errorOpt ;;
       getMessage errorVal) ;;;
  ret 0.

(** The [else] branch of the second client: [resultN.error().as<...>()] and
    what follows it; [expected] is the case the client asserts, if any. *)
Definition handle_error (result : Expected Swift.Float) (expected : option Swift.DivByZero)
    : Exec unit :=
  e <- error result ;;
  r <- method (Error_as Swift.DivByZero e) ;;
  let optionalError := fst r in
  assert (isSome optionalError) ;;;
  errorValue <- get optionalError ;;
  match expected with
  | Some c => assert (Swift.DivByZero_eqb errorValue c)
  | None => ret tt
  end ;;;
  getMessage errorValue.

(** [main] of the second client (src/unnamed/part_001), compiled with
    [-fno-exceptions]. *)
Definition main_expected : Exec Z :=
  printf "Runnnig expected example:\n" [] ;;;
  result0 <- division NoExceptions 1 0 ;;
  (if has_value result0
   then v <- value result0 ;; printf "result = %f\n" [v]
   else handle_error result0 (Some Swift.divisorIsZero)) ;;;
  result1 <- division NoExceptions 0 0 ;;
  (if has_value result1
   then v <- value result1 ;; printf "result = %f\n" [v]
   else handle_error result1 (Some Swift.bothAreZero)) ;;;
  result2 <- division NoExceptions 4 2 ;;
  (if has_value result2
   then v <- value result2 ;; printf "result = %f\n" [v]
   else handle_error result2 None) ;;;
  ret 0.

(** *** One call and its handling, for any operands

    Each client repeats one block three times, with other literals: the call,
    the [printf] of the result, and the recovery of the error with, in the
    first two copies, an [assert] on the case.  The blocks below are those of
    the sources with the operands and the asserted case as parameters. *)

(** The body of a [catch (Swift::Error& e)] of the first client
    (src/Example.cpp, lines 12-17). *)
Definition catch_block (expected : option Swift.DivByZero) (e : Error) : Exec unit :=
  r <- method (Error_as Swift.DivByZero e) ;;
  let errorOpt := fst r in
  assert (isSome errorOpt) ;;;
  errorVal <- get errorOpt ;;
  match expected with
  | Some c => assert (Swift.DivByZero_eqb errorVal c)
  | None => ret tt
  end ;;;
  getMessage errorVal.

(** [try { auto result = division(a, b); printf(...); } catch ...]
    (src/Example.cpp, lines 8-18). *)
Definition try_division (a b : Z) (expected : option Swift.DivByZero) : Exec unit :=
  try_catch
    (result <- division Exceptions a b ;;
     printf "result = %f\n" [result])
    (catch_block expected).

(** [auto result = division(a, b); if (result.has_value()) ... else ...]
    (src/unnamed/part_001, lines 8-18). *)
Definition check_division (a b : Z) (expected : option Swift.DivByZero) : Exec unit :=
  result <- division NoExceptions a b ;;
  if has_value result
  then v <- value result ;; printf "result = %f\n" [v]
  else handle_error result expected.

(** *** The two examples of README.md *)

(** README.md, lines 79-106: the example with exceptions. *)
Definition main_readme_exceptions : Exec Z :=
  try_catch
    (result <- division Exceptions 0 0 ;;
     printf "result = %f\n" [result])
    (fun e =>
       r <- method (Error_as Swift.DivByZero e) ;;
       let errorOpt := fst r in
       assert (isSome errorOpt) ;;;
       errorVal <- get errorOpt ;;
       assert (Swift.DivByZero_eqb errorVal Swift.bothAreZero) ;;;
       getMessage errorVal) ;;;
  try_catch
    (result <- division Exceptions 4 2 ;;
     printf "result = %f\n" [result])
    (fun e =>
       r <- method (Error_as Swift.DivByZero e) ;;
       let errorOpt := fst r in
       assert (isSome errorOpt) ;;;
       errorVal <- get errorOpt ;;
       getMessage errorVal) ;;;
  ret 0.

(** README.md, lines 138-162: the example with [Swift::Expected]. *)
Definition main_readme_expected : Exec Z :=
  errorResult <- division NoExceptions 1 0 ;;
  (if has_value errorResult
   then v <- value errorResult ;; printf "result = %f\n" [v]
   else handle_error errorResult (Some Swift.divisorIsZero)) ;;;
  goodResult <- division NoExceptions 4 2 ;;
  (if has_value goodResult
   then v <- value goodResult ;; printf "result = %f\n" [v]
   else handle_error goodResult None) ;;;
  ret 0.

End Wrapper.

(** *** What a client observes of one call

    Both clients reduce a call of [division] to the same three-way
    observation: a float to print, a [Swift::Error] to inspect, or no
    continuation at all. *)
Inductive Observation : Type :=
  | Success (v : Swift.Float)
  | Failure (e : Error)
  | Stopped.

(** With exceptions the value is the returned float and the error is the
    object caught. *)
Definition observe_exceptions (r : Exec Swift.Float) : Observation :=
  match snd r with
  | Normal v => Success v
  | Throw e => Failure e
  | Abort => Stopped
  end.

(** Without exceptions both come out of the returned [Swift::Expected]; an
    exception cannot leave code compiled with [-fno-exceptions]. *)
Definition observe_expected (r : Exec (Expected Swift.Float)) : Observation :=
  match snd r with
  | Normal (Expected_value v) => Success v
  | Normal (Expected_error e) => Failure e
  | Throw _ => Stopped
  | Abort => Stopped
  end.

Definition observe (mode : Mode) : Exec (ThrowingResult mode Swift.Float) -> Observation :=
  match mode with
  | Exceptions => observe_exceptions
  | NoExceptions => observe_expected
  end.

(** One call yields exactly one of a success value and an error. *)
Definition produces_exactly_one (o : Observation) : Prop :=
  ((exists v, o = Success v) /\ ~ (exists e, o = Failure e)) \/
  ((exists e, o = Failure e) /\ ~ (exists v, o = Success v)).

(** The case a client recovers from an observed failure with
    [as<Functions::DivByZero>()]. *)
Definition recovered_case (o : Observation) : option Swift.DivByZero :=
  match o with
  | Failure e =>
      match fst (Error_as Swift.DivByZero e) with
      | Normal c => c
      | _ => None
      end
  | _ => None
  end.

End Cxx.

(* ====================================================================== *)
(** ** Properties of Example.swift *)
(* ====================================================================== *)

Section SwiftFacts.

Import Swift.

(** *** [Int] division *)

Lemma Int_div_None_iff (a b : Z) :
  Int_div a b = None <-> b = 0 \/ (a = Int_min /\ b = -1).
Proof.
  unfold Int_div.
  destruct (Z.eqb_spec b 0) as [Hb | Hb].
  - split; auto.
  - destruct (Z.eqb_spec a Int_min) as [Ha | Ha];
      destruct (Z.eqb_spec b (-1)) as [Hm | Hm]; simpl;
      split; try discriminate; intuition congruence.
Qed.

Lemma Int_div_Some (a b : Z) :
  b <> 0 -> ~ (a = Int_min /\ b = -1) -> Int_div a b = Some (Z.quot a b).
Proof.
  intros Hb Hov.
  destruct (Int_div a b) as [q |] eqn:E.
  - unfold Int_div in E.
    destruct (b =? 0); [discriminate |].
    destruct ((a =? Int_min) && (b =? -1)); [discriminate |].
    symmetry; exact E.
  - apply Int_div_None_iff in E. tauto.
Qed.

(** The quotient of two [Int]s is an [Int] again unless the operands are
    [Int.min] and [-1]: the trap of [Int_div] is exactly the overflow. *)
Lemma quot_Int_ok (a b : Z) :
  Int_ok a -> Int_ok b -> b <> 0 -> ~ (a = Int_min /\ b = -1) ->
  Int_ok (Z.quot a b).
Proof.
  unfold Int_ok, Int_min, Int_max, Int_bitWidth.
  change (2 ^ (64 - 1)) with 9223372036854775808.
  intros Ha Hb Hnz Hov.
  assert (Habs : Z.abs (Z.quot a b) <= Z.abs a).
  { rewrite <- (Z.quot_abs a b) by exact Hnz.
    apply Z.quot_le_upper_bound; [lia |].
    nia. }
  destruct (Z.eq_dec a (-9223372036854775808)) as [Ea | Ea].
  - subst a.
    destruct (Z.eq_dec b 1) as [E1 | E1].
    + subst b. rewrite Z.quot_1_r. lia.
    + assert (Hb2 : 2 <= Z.abs b) by lia.
      assert (H2 : Z.abs (Z.quot (-9223372036854775808) b) <= 4611686018427387904).
      { rewrite <- (Z.quot_abs _ b) by exact Hnz.
        apply Z.quot_le_upper_bound; [lia |].
        change (Z.abs (-9223372036854775808)) with 9223372036854775808.
        nia. }
      lia.
  - lia.
Qed.

Lemma quot_Int_min_overflows :
  Z.quot Int_min (-1) = Int_max + 1 /\ ~ Int_ok (Z.quot Int_min (-1)).
Proof.
  split; [reflexivity |].
  unfold Int_ok. vm_compute. intros [_ H]. apply H. reflexivity.
Qed.

(** *** [Float(_: Int)] *)

Lemma log2_small (n : Z) :
  Z.log2 (Z.abs n) <= Float_significandBitCount <-> Z.abs n < 2 ^ 24.
Proof.
  unfold Float_significandBitCount.
  destruct (Z.eq_dec (Z.abs n) 0) as [E | E].
  - rewrite E. simpl. lia.
  - assert (Hpos : 0 < Z.abs n) by lia.
    pose proof (Z.log2_lt_pow2 (Z.abs n) 24 Hpos) as H.
    lia.
Qed.

(** Integers of magnitude below 2^24 convert exactly. *)
Lemma Float_init_exact (n : Z) :
  Z.abs n < 2 ^ 24 -> Float_init n = mkFloat n.
Proof.
  intros H. apply log2_small in H.
  unfold Float_init.
  destruct (Z.leb_spec (Z.log2 (Z.abs n)) Float_significandBitCount); [reflexivity | lia].
Qed.

(** Above that the conversion rounds: 2^24 + 1 has no binary32 of its own. *)
Example Float_init_rounds :
  Float_init (2 ^ 24 + 1) = mkFloat (2 ^ 24) /\
  Float_init (2 ^ 24 + 3) = mkFloat (2 ^ 24 + 4) /\
  Float_init Int_max = mkFloat (2 ^ 63).
Proof. repeat split; reflexivity. Qed.

(** The other integers: the magnitude is cut into the 24 leading bits [q]
    and the [sh] bits [r] below them, and [q] goes up by one when [r] is above
    half, or is half with [q] odd. *)
Lemma Float_init_large (n : Z) :
  Float_significandBitCount < Z.log2 (Z.abs n) ->
  let sh := Z.log2 (Z.abs n) - Float_significandBitCount in
  exists q r,
    Z.abs n = q * 2 ^ sh + r /\ 0 <= r < 2 ^ sh /\ 2 ^ 23 <= q < 2 ^ 24 /\
    Float_value (Float_init n) =
      Z.sgn n * ((if (2 ^ (sh - 1) <? r) || ((2 ^ (sh - 1) =? r) && Z.odd q)
                  then q + 1 else q) * 2 ^ sh).
Proof.
  intros Hk sh.
  assert (Hsh : 0 < sh) by (unfold sh; lia).
  assert (Hpos : 0 < Z.abs n).
  { destruct (Z.eq_dec (Z.abs n) 0) as [E | E]; [| lia].
    rewrite E in Hk. unfold Float_significandBitCount in Hk. simpl in Hk. lia. }
  pose proof (Z.log2_spec (Z.abs n) Hpos) as [Hlo Hhi].
  assert (Hp : 0 < 2 ^ sh) by (apply Z.pow_pos_nonneg; lia).
  assert (Hk' : Z.log2 (Z.abs n) = 23 + sh)
    by (unfold sh, Float_significandBitCount; lia).
  rewrite Hk' in Hlo, Hhi.
  replace (Z.succ (23 + sh)) with (24 + sh) in Hhi by lia.
  rewrite Z.pow_add_r in Hlo, Hhi by lia.
  exists (Z.abs n / 2 ^ sh), (Z.abs n mod 2 ^ sh).
  pose proof (Z.div_mod (Z.abs n) (2 ^ sh) ltac:(lia)) as Hdm.
  pose proof (Z.mod_pos_bound (Z.abs n) (2 ^ sh) Hp) as Hr.
  split; [lia |]. split; [exact Hr |]. split.
  - split.
    + apply Z.div_le_lower_bound; lia.
    + apply Z.div_lt_upper_bound; lia.
  - unfold Float_init. fold sh.
    destruct (Z.leb_spec (Z.log2 (Z.abs n)) Float_significandBitCount); [lia |].
    cbn [Float_value].
    rewrite Z.shiftr_div_pow2, Z.land_ones, !Z.shiftl_mul_pow2 by lia.
    rewrite Z.mul_1_l. reflexivity.
Qed.

(** Whatever [Float(_:)] returns is a binary32 number. *)
Lemma Float_init_representable (n : Z) :
  binary32_integer (Float_value (Float_init n)).
Proof.
  destruct (Z.le_gt_cases (Z.log2 (Z.abs n)) Float_significandBitCount) as [Hs | Hl].
  - exists n, 0. pose proof (proj1 (log2_small n) Hs).
    rewrite Float_init_exact by assumption. cbn [Float_value].
    unfold Float_significandBitCount. simpl (23 + 1). lia.
  - destruct (Float_init_large n Hl) as (q & r & _ & _ & Hq & ->).
    set (sh := Z.log2 (Z.abs n) - Float_significandBitCount) in *.
    assert (Hsh : 0 < sh) by (unfold sh; lia).
    unfold binary32_integer, Float_significandBitCount. simpl (23 + 1).
    assert (Hs : Z.abs (Z.sgn n) <= 1) by lia.
    change (2 ^ 24) with 16777216 in *. change (2 ^ 23) with 8388608 in *.
    destruct ((2 ^ (sh - 1) <? r) || ((2 ^ (sh - 1) =? r) && Z.odd q)).
    + destruct (Z.eq_dec (q + 1) 16777216) as [E | E].
      * exists (Z.sgn n * 8388608), (sh + 1). split; [| split; [lia |]].
        -- rewrite Z.abs_mul. nia.
        -- rewrite E, Z.pow_add_r by lia. lia.
      * exists (Z.sgn n * (q + 1)), sh. split; [| split; [lia | ring]].
        rewrite Z.abs_mul. nia.
    + exists (Z.sgn n * q), sh. split; [| split; [lia | ring]].
      rewrite Z.abs_mul. nia.
Qed.

(** It is within half a unit of the last kept bit of the integer converted. *)
Lemma Float_init_nearest (n : Z) :
  Float_significandBitCount < Z.log2 (Z.abs n) ->
  2 * Z.abs (Float_value (Float_init n) - n)
    <= 2 ^ (Z.log2 (Z.abs n) - Float_significandBitCount).
Proof.
  intros Hl.
  destruct (Float_init_large n Hl) as (q & r & Hn & Hr & Hq & ->).
  set (sh := Z.log2 (Z.abs n) - Float_significandBitCount) in *.
  assert (Hsh : 0 < sh) by (unfold sh; lia).
  assert (H2 : 2 ^ sh = 2 * 2 ^ (sh - 1)).
  { replace sh with (1 + (sh - 1)) at 1 by lia. rewrite Z.pow_add_r by lia. reflexivity. }
  assert (Hsg : n = Z.sgn n * Z.abs n) by lia.
  rewrite Hsg at 2.
  rewrite <- Z.mul_sub_distr_l, Z.abs_mul.
  assert (Hs : Z.abs (Z.sgn n) <= 1) by lia.
  clear Hsg.
  destruct (Z.ltb_spec (2 ^ (sh - 1)) r) as [H1 | H1]; cbn [orb].
  - nia.
  - destruct (Z.eqb_spec (2 ^ (sh - 1)) r) as [H3 | H3]; cbn [andb].
    + destruct (Z.odd q); nia.
    + nia.
Qed.

End SwiftFacts.

(** *** [division], branch by branch *)

Section DivisionFacts.

Import Swift.

Lemma division_zero_zero : division 0 0 = Thrown bothAreZero.
Proof. reflexivity. Qed.

Lemma division_by_zero (a : Z) : a <> 0 -> division a 0 = Thrown divisorIsZero.
Proof.
  intros Ha. unfold division.
  destruct (Z.eqb_spec a 0) as [E | _]; [contradiction | reflexivity].
Qed.

Lemma division_nonzero (a b : Z) :
  b <> 0 ->
  division a b =
    match Int_div a b with
    | Some q => Returned (Float_init q)
    | None => Trapped
    end.
Proof.
  intros Hb. unfold division.
  destruct (Z.eqb_spec b 0) as [E | _]; [contradiction |].
  rewrite andb_false_r. reflexivity.
Qed.

Lemma division_Int_min : division Int_min (-1) = Trapped.
Proof. reflexivity. Qed.

(** The rules of [division_runs] describe the function and nothing else. *)
Lemma division_runs_division (a b : Z) : division_runs a b (division a b).
Proof.
  destruct (Z.eq_dec b 0) as [Hb | Hb].
  - subst b. destruct (Z.eq_dec a 0) as [Ha | Ha].
    + subst a. apply run_bothAreZero; reflexivity.
    + rewrite division_by_zero by exact Ha.
      apply run_divisorIsZero; [tauto | reflexivity].
  - rewrite division_nonzero by exact Hb.
    destruct (Int_div a b) as [q |] eqn:E.
    + apply run_quotient; [tauto | exact Hb | exact E].
    + apply run_overflow; [tauto | exact Hb | exact E].
Qed.

Lemma division_runs_inv (a b : Z) (o : Outcome Float DivByZero) :
  division_runs a b o -> o = division a b.
Proof.
  intros H. inversion H as [Ha Hb | Hn Hb | q Hn Hb Hq | Hn Hb Hq]; subst.
  - reflexivity.
  - symmetry. apply division_by_zero. tauto.
  - rewrite division_nonzero, Hq by exact Hb. reflexivity.
  - rewrite division_nonzero, Hq by exact Hb. reflexivity.
Qed.

End DivisionFacts.

(* ====================================================================== *)
(** ** Properties of the wrapper and of the carrier *)
(* ====================================================================== *)

Section CxxFacts.

Import Swift Cxx.

Variable indeterminate : Float.

(** The wrapper, case by case on what the Swift function does. *)
Lemma division_wrapper (mode : Mode) (a b : Z) :
  Cxx.division indeterminate mode a b =
    match Swift.division a b with
    | Returned v => ret (SWIFT_RETURN_THUNK mode v)
    | Thrown e => SWIFT_RETURN_THUNK_error mode (mkError (box_error e))
    | Trapped => abort
    end.
Proof.
  unfold Cxx.division, division_impl.
  destruct (Swift.division a b); destruct mode; reflexivity.
Qed.

Lemma observe_division (mode : Mode) (a b : Z) :
  observe mode (Cxx.division indeterminate mode a b) =
    match Swift.division a b with
    | Returned v => Success v
    | Thrown e => Failure (mkError (box_error e))
    | Trapped => Stopped
    end.
Proof.
  rewrite division_wrapper.
  destruct (Swift.division a b); destruct mode; reflexivity.
Qed.

(** The wrapper itself prints nothing. *)
Lemma division_silent (mode : Mode) (a b : Z) :
  fst (Cxx.division indeterminate mode a b) = [].
Proof.
  rewrite division_wrapper.
  destruct (Swift.division a b); destruct mode; reflexivity.
Qed.

(** The error slot comes back written exactly when the Swift function threw;
    the float that comes back with it is then the unspecified one. *)
Lemma division_impl_slot (a b : Z) :
  division_impl indeterminate a b nullptr nullptr =
    match Swift.division a b with
    | Returned v => ret (v, None)
    | Thrown e => ret (indeterminate, Some (box_error e))
    | Trapped => abort
    end.
Proof. reflexivity. Qed.

(** Asking a carrier for the domain of the value that was boxed gives the
    value back. *)
Lemma Error_as_same (D : Type) `{SwiftError D} (d : D) :
  Error_as D (mkError (box_error d)) = (Normal (Some d), mkError (box_error d)).
Proof.
  unfold Error_as, box_error. cbn [opaqueValue box_metadata box_case].
  rewrite String.eqb_refl, caseOfIndex_caseIndex. reflexivity.
Qed.

(** Asking for a domain with other metadata gives nothing. *)
Lemma Error_as_other (D D' : Type) `{SwiftError D} `{SwiftError D'} (d : D) :
  getTypeMetadata D' <> getTypeMetadata D ->
  Error_as D' (mkError (box_error d)) = (Normal None, mkError (box_error d)).
Proof.
  intros Hne. unfold Error_as, box_error. cbn [opaqueValue box_metadata box_case].
  destruct (String.eqb_spec (getTypeMetadata D) (getTypeMetadata D')) as [E | _].
  - exfalso. apply Hne. symmetry. exact E.
  - reflexivity.
Qed.

(** [as] never throws and never stops the program, whatever is asked. *)
Lemma Error_as_completes (D : Type) `{SwiftError D} (self : Error) :
  exists o, fst (Error_as D self) = Normal o.
Proof.
  unfold Error_as.
  destruct (String.eqb _ _); eexists; reflexivity.
Qed.

(** Both clients run to [return 0] with no assertion failing, and print the
    same three lines after their banner. *)
Lemma main_exceptions_runs :
  main_exceptions indeterminate =
    ([Printf "Good example:\n" []; Print "divisorIsZero"; Print "bothAreZero";
      Printf "result = %f\n" [mkFloat 2]], Normal 0).
Proof. reflexivity. Qed.

Lemma main_expected_runs :
  main_expected indeterminate =
    ([Printf "Runnnig expected example:\n" []; Print "divisorIsZero";
      Print "bothAreZero"; Printf "result = %f\n" [mkFloat 2]], Normal 0).
Proof. reflexivity. Qed.

End CxxFacts.

(* ====================================================================== *)
(** ** The specification's properties *)
(* ====================================================================== *)

Import Swift Cxx.

(** What the return register held when Swift threw never reaches the
    client. *)
Lemma division_indeterminate_irrelevant (i1 i2 : Float) (mode : Mode) (a b : Z) :
  Cxx.division i1 mode a b = Cxx.division i2 mode a b.
Proof. rewrite !division_wrapper. reflexivity. Qed.

(** C1 (as stated, refuted): with the divisor [-1], which is not zero, and
    the dividend [Int.min], both of them [Int]s, [division] does not succeed:
    the integer division overflows and the call traps. *)
Lemma division_nonzero_divisor_counterexample :
  Int_ok (-9223372036854775808) /\ Int_ok (-1) /\ -1 <> 0 /\
  Swift.division (-9223372036854775808) (-1) = Trapped /\
  Swift.division (-9223372036854775808) (-1)
    <> Returned (Float_init (Z.quot (-9223372036854775808) (-1))).
Proof.
  repeat split; try discriminate; try reflexivity.
Qed.

(** C1 (amended): for operands [a], [b] with [b] not zero, other than
    [Int.min] and [-1], [division] succeeds and its value is the quotient of
    [a] by [b] rounded toward zero and then converted by [Float(_:)]; the
    client receives that value in both modes.  At [(4, 2)] this is [2.0]. *)
Theorem division_quotient (indeterminate : Float) (mode : Mode) (a b : Z) :
  b <> 0 -> ~ (a = Int_min /\ b = -1) ->
  Swift.division a b = Returned (Float_init (Z.quot a b)) /\
  observe mode (Cxx.division indeterminate mode a b)
    = Success (Float_init (Z.quot a b)).
Proof.
  intros Hb Hov.
  assert (E : Swift.division a b = Returned (Float_init (Z.quot a b))).
  { rewrite division_nonzero by exact Hb.
    rewrite Int_div_Some by assumption. reflexivity. }
  split; [exact E |].
  rewrite observe_division, E. reflexivity.
Qed.

Lemma division_quotient_witness :
  (2 <> 0 /\ ~ (4 = Int_min /\ 2 = -1)) /\
  Swift.division 4 2 = Returned (mkFloat 2) /\
  observe NoExceptions (Cxx.division (mkFloat 0) NoExceptions 4 2)
    = Success (mkFloat 2).
Proof.
  assert (H2 : 2 <> 0) by discriminate.
  assert (Hov : ~ (4 = Int_min /\ 2 = -1)) by (intros [_ H]; discriminate H).
  split; [split; assumption |].
  exact (division_quotient (mkFloat 0) NoExceptions 4 2 H2 Hov).
Defined.

(** C2: when both operands are zero, [division] fails with [bothAreZero]:
    the Swift function throws it, with exceptions the wrapper throws the
    carrier of it, without exceptions it returns the carrier as the error of
    the result, and [as<DivByZero>()] on the carrier gives [bothAreZero]. *)
Theorem division_bothAreZero (indeterminate : Float) (a b : Z) :
  a = 0 -> b = 0 ->
  Swift.division a b = Thrown bothAreZero /\
  snd (Cxx.division indeterminate Exceptions a b)
    = Throw (mkError (box_error bothAreZero)) /\
  snd (Cxx.division indeterminate NoExceptions a b)
    = Normal (Expected_error (mkError (box_error bothAreZero))) /\
  fst (Error_as DivByZero (mkError (box_error bothAreZero)))
    = Normal (Some bothAreZero).
Proof.
  intros -> ->.
  rewrite !division_wrapper, division_zero_zero, Error_as_same.
  repeat split.
Qed.

Lemma division_bothAreZero_witness :
  (0 = 0 /\ 0 = 0) /\
  Swift.division 0 0 = Thrown bothAreZero /\
  snd (Cxx.division (mkFloat 0) Exceptions 0 0)
    = Throw (mkError (box_error bothAreZero)) /\
  snd (Cxx.division (mkFloat 0) NoExceptions 0 0)
    = Normal (Expected_error (mkError (box_error bothAreZero))) /\
  fst (Error_as DivByZero (mkError (box_error bothAreZero)))
    = Normal (Some bothAreZero).
Proof.
  split; [split; reflexivity |].
  apply (division_bothAreZero (mkFloat 0) 0 0); reflexivity.
Defined.

(** C3: when only the divisor is zero, [division] fails with
    [divisorIsZero], delivered as in C2: thrown with exceptions, the error of
    the result without, and recovered by [as<DivByZero>()]. *)
Theorem division_divisorIsZero (indeterminate : Float) (a b : Z) :
  a <> 0 -> b = 0 ->
  Swift.division a b = Thrown divisorIsZero /\
  snd (Cxx.division indeterminate Exceptions a b)
    = Throw (mkError (box_error divisorIsZero)) /\
  snd (Cxx.division indeterminate NoExceptions a b)
    = Normal (Expected_error (mkError (box_error divisorIsZero))) /\
  fst (Error_as DivByZero (mkError (box_error divisorIsZero)))
    = Normal (Some divisorIsZero).
Proof.
  intros Ha ->.
  rewrite !division_wrapper, division_by_zero, Error_as_same by exact Ha.
  repeat split.
Qed.

Lemma division_divisorIsZero_witness :
  (1 <> 0 /\ 0 = 0) /\
  Swift.division 1 0 = Thrown divisorIsZero /\
  snd (Cxx.division (mkFloat 0) Exceptions 1 0)
    = Throw (mkError (box_error divisorIsZero)) /\
  snd (Cxx.division (mkFloat 0) NoExceptions 1 0)
    = Normal (Expected_error (mkError (box_error divisorIsZero))) /\
  fst (Error_as DivByZero (mkError (box_error divisorIsZero)))
    = Normal (Some divisorIsZero).
Proof.
  assert (H1 : 1 <> 0) by discriminate.
  split; [split; [exact H1 | reflexivity] |].
  exact (division_divisorIsZero (mkFloat 0) 1 0 H1 eq_refl).
Defined.

(** C4: on the same operands the client compiled with exceptions and the one
    compiled without observe the same thing, a success with the same float, a
    failure with the same carrier and so the same recovered case, or no
    continuation; what differs is the delivery, a returned float against
    [Expected] holding it, a thrown carrier against [Expected] holding it. *)
Theorem mode_equivalence (indeterminate : Float) (a b : Z) :
  observe Exceptions (Cxx.division indeterminate Exceptions a b)
    = observe NoExceptions (Cxx.division indeterminate NoExceptions a b) /\
  recovered_case (observe Exceptions (Cxx.division indeterminate Exceptions a b))
    = recovered_case (observe NoExceptions (Cxx.division indeterminate NoExceptions a b)) /\
  match observe Exceptions (Cxx.division indeterminate Exceptions a b) with
  | Success v =>
      snd (Cxx.division indeterminate Exceptions a b) = Normal v /\
      snd (Cxx.division indeterminate NoExceptions a b) = Normal (Expected_value v)
  | Failure e =>
      snd (Cxx.division indeterminate Exceptions a b) = Throw e /\
      snd (Cxx.division indeterminate NoExceptions a b) = Normal (Expected_error e)
  | Stopped =>
      snd (Cxx.division indeterminate Exceptions a b) = Abort /\
      snd (Cxx.division indeterminate NoExceptions a b) = Abort
  end.
Proof.
  rewrite !observe_division, !division_wrapper.
  destruct (Swift.division a b); repeat split.
Qed.

(** C5: whenever a client observes a failure of [division], in either mode,
    the Swift function threw some case [c], [as<DivByZero>()] on the carrier
    completes with a present optional holding [c], and [as<D'>()] for a domain
    [D'] with other metadata completes with an absent optional; neither call
    raises, and the carrier is as it was. *)
Theorem as_round_trip (indeterminate : Float) (mode : Mode) (a b : Z) (e : Error)
    (D' : Type) `{SwiftError D'} :
  observe mode (Cxx.division indeterminate mode a b) = Failure e ->
  getTypeMetadata D' <> getTypeMetadata DivByZero ->
  (exists c,
      Swift.division a b = Thrown c /\
      Error_as DivByZero e = (Normal (Some c), e)) /\
  Error_as D' e = (Normal None, e).
Proof.
  intros Hobs Hne.
  rewrite observe_division in Hobs.
  destruct (Swift.division a b) as [v | c |]; try discriminate.
  injection Hobs as <-.
  split.
  - exists c. split; [reflexivity | apply Error_as_same].
  - apply Error_as_other. exact Hne.
Qed.

Lemma as_round_trip_witness :
  (observe Exceptions (Cxx.division (mkFloat 0) Exceptions 1 0)
     = Failure (mkError (mkErrorBox "Functions.DivByZero" 0)) /\
   getTypeMetadata UnrelatedDomain <> getTypeMetadata DivByZero) /\
  (exists c,
      Swift.division 1 0 = Thrown c /\
      Error_as DivByZero (mkError (mkErrorBox "Functions.DivByZero" 0))
        = (Normal (Some c), mkError (mkErrorBox "Functions.DivByZero" 0))) /\
  Error_as UnrelatedDomain (mkError (mkErrorBox "Functions.DivByZero" 0))
    = (Normal None, mkError (mkErrorBox "Functions.DivByZero" 0)).
Proof.
  assert (Hobs : observe Exceptions (Cxx.division (mkFloat 0) Exceptions 1 0)
                 = Failure (mkError (mkErrorBox "Functions.DivByZero" 0)))
    by reflexivity.
  assert (Hne : getTypeMetadata UnrelatedDomain <> getTypeMetadata DivByZero)
    by discriminate.
  split; [split; assumption |].
  exact (as_round_trip (mkFloat 0) Exceptions 1 0 _ UnrelatedDomain Hobs Hne).
Defined.

(** C6: for every carrier and every domain, [as<D>()] called twice in a row
    gives the same result both times, and the carrier after each call is the
    carrier before it. *)
Theorem as_idempotent (D : Type) `{SwiftError D} (self : Error) :
  fst (Error_as D (snd (Error_as D self))) = fst (Error_as D self) /\
  snd (Error_as D self) = self /\
  snd (Error_as D (snd (Error_as D self))) = self.
Proof.
  assert (Hsame : snd (Error_as D self) = self).
  { unfold Error_as. destruct (String.eqb _ _); reflexivity. }
  rewrite Hsame. repeat split; exact Hsame.
Qed.

(** C7 (as stated, refuted): the call [division(Int.min, -1)] produces
    neither a success value nor an error, in either mode: the Swift function
    traps inside the wrapper. *)
Lemma call_shim_exactly_one_counterexample :
  ~ produces_exactly_one
      (observe Exceptions
         (Cxx.division (mkFloat 0) Exceptions (-9223372036854775808) (-1))) /\
  ~ produces_exactly_one
      (observe NoExceptions
         (Cxx.division (mkFloat 0) NoExceptions (-9223372036854775808) (-1))).
Proof.
  split; intros [[[v Hv] _] | [[e He] _]]; discriminate.
Qed.

(** C7 (amended): every call of the wrapper on operands other than
    [Int.min] and [-1] produces exactly one of a success value and an error,
    in both modes; and every [Expected] the wrapper returns holds exactly one
    of a value and a carrier, [has_value] telling which. *)
Theorem call_shim_exactly_one (indeterminate : Float) (mode : Mode) (a b : Z) :
  ~ (a = Int_min /\ b = -1) ->
  produces_exactly_one (observe mode (Cxx.division indeterminate mode a b)) /\
  match snd (Cxx.division indeterminate NoExceptions a b) with
  | Normal r => holds_exactly_one r
  | Throw _ => False
  | Abort => False
  end.
Proof.
  intros Hov.
  assert (Hrun : exists v, Swift.division a b = Returned v \/
                 exists c, Swift.division a b = Thrown c).
  { destruct (Z.eq_dec b 0) as [Hb | Hb].
    - subst b. exists (mkFloat 0). right.
      destruct (Z.eq_dec a 0) as [Ha | Ha].
      + subst a. exists bothAreZero. reflexivity.
      + exists divisorIsZero. apply division_by_zero. exact Ha.
    - exists (Float_init (Z.quot a b)). left.
      rewrite division_nonzero, Int_div_Some by assumption. reflexivity. }
  rewrite observe_division, division_wrapper.
  destruct Hrun as [v [-> | [c ->]]].
  - split.
    + left. split; [eexists; reflexivity | intros [e He]; discriminate].
    + left. repeat split.
      * exists v. reflexivity.
      * intros [e He]. discriminate.
  - split.
    + right. split; [eexists; reflexivity | intros [x Hx]; discriminate].
    + right. repeat split.
      * eexists. reflexivity.
      * intros [x Hx]. discriminate.
Qed.

Lemma call_shim_exactly_one_witness :
  ~ (4 = Int_min /\ 2 = -1) /\
  produces_exactly_one (observe NoExceptions (Cxx.division (mkFloat 0) NoExceptions 4 2)) /\
  holds_exactly_one (Expected_value (mkFloat 2)).
Proof.
  assert (Hov : ~ (4 = Int_min /\ 2 = -1)) by (intros [_ H]; discriminate H).
  split; [exact Hov |].
  exact (call_shim_exactly_one (mkFloat 0) NoExceptions 4 2 Hov).
Defined.

(** C8: [value()] on a result that holds an error, and [error()] on a result
    that holds a value, stop the program: no value comes back, a default
    least of all. *)
Theorem misuse_aborts (T : Type) (r : Expected T) :
  (has_value r = false -> value r = abort /\ forall v, value r <> ret v) /\
  (has_value r = true -> error r = abort /\ forall e, error r <> ret e).
Proof.
  destruct r as [v | e]; split; intros Hh; try discriminate Hh;
    (split; [reflexivity | intros x Hx; discriminate Hx]).
Qed.

Lemma misuse_aborts_witness :
  (has_value (Expected_error (T := Float) (mkError (box_error divisorIsZero))) = false /\
   has_value (Expected_value (mkFloat 2)) = true) /\
  value (Expected_error (T := Float) (mkError (box_error divisorIsZero))) = abort /\
  error (Expected_value (mkFloat 2)) = abort.
Proof.
  split; [split; reflexivity |].
  split.
  - exact (proj1 (proj1 (misuse_aborts Float
             (Expected_error (mkError (box_error divisorIsZero)))) eq_refl)).
  - exact (proj1 (proj2 (misuse_aborts Float (Expected_value (mkFloat 2))) eq_refl)).
Defined.

(** C9: [Int.min] and [-1] are [Int]s and the divisor is not zero, yet their
    quotient is [Int.max + 1], not an [Int]; [division] traps there, so it
    neither returns a value nor throws a [DivByZero], and a client of the
    wrapper observes neither in either mode. *)
Theorem division_Int_min_traps (indeterminate : Float) (mode : Mode) :
  Int_ok Int_min /\ Int_ok (-1) /\ -1 <> 0 /\
  ~ Int_ok (Z.quot Int_min (-1)) /\
  Int_div Int_min (-1) = None /\
  Swift.division Int_min (-1) = Trapped /\
  observe mode (Cxx.division indeterminate mode Int_min (-1)) = Stopped.
Proof.
  split; [split; discriminate |].
  split; [split; discriminate |].
  split; [discriminate |].
  split; [exact (proj2 quot_Int_min_overflows) |].
  split; [reflexivity |].
  split; [reflexivity |].
  rewrite observe_division. reflexivity.
Qed.

(** C10: two runs of [division] on equal arguments end the same way, with
    the same returned float, the same thrown case, or both in a trap. *)
Theorem division_deterministic (a b a' b' : Z) (o o' : Outcome Float DivByZero) :
  a = a' -> b = b' ->
  division_runs a b o -> division_runs a' b' o' ->
  o = o'.
Proof.
  intros <- <- Ho Ho'.
  apply division_runs_inv in Ho, Ho'.
  congruence.
Qed.

Lemma division_deterministic_witness :
  (4 = 4 /\ 2 = 2 /\
   division_runs 4 2 (Swift.division 4 2) /\
   division_runs 4 2 (Returned (mkFloat 2))) /\
  Swift.division 4 2 = Returned (mkFloat 2).
Proof.
  assert (H1 : division_runs 4 2 (Swift.division 4 2))
    by exact (division_runs_division 4 2).
  assert (H2 : division_runs 4 2 (Returned (mkFloat 2))).
  { apply (run_quotient 4 2 2).
    - intros [H _]; discriminate H.
    - discriminate.
    - reflexivity. }
  split; [repeat split; assumption |].
  exact (division_deterministic 4 2 4 2 _ _ eq_refl eq_refl H1 H2).
Defined.

(* ====================================================================== *)
(** ** Further properties of the code *)
(* ====================================================================== *)

(** *** Lemmas on [Float(_:)] and on the client blocks *)

Section MoreSwiftFacts.

Lemma Float_init_opp (n : Z) :
  Float_init (- n) = mkFloat (- Float_value (Float_init n)).
Proof.
  unfold Float_init. rewrite Z.abs_opp, Z.sgn_opp.
  destruct (Z.log2 (Z.abs n) <=? Float_significandBitCount); cbn [Float_value].
  - reflexivity.
  - f_equal. ring.
Qed.

(** Rounding moves an integer by at most 2^-24 of its magnitude. *)
Lemma Float_init_relative (n : Z) :
  2 ^ 24 * Z.abs (Float_value (Float_init n) - n) <= Z.abs n.
Proof.
  destruct (Z.le_gt_cases (Z.log2 (Z.abs n)) Float_significandBitCount) as [Hs | Hl].
  - rewrite Float_init_exact by (apply log2_small; exact Hs).
    cbn [Float_value]. rewrite Z.sub_diag. simpl. lia.
  - pose proof (Float_init_nearest n Hl) as Hn.
    assert (Hpos : 0 < Z.abs n).
    { destruct (Z.eq_dec (Z.abs n) 0) as [E | E]; [| lia].
      rewrite E in Hl. unfold Float_significandBitCount in Hl. simpl in Hl. lia. }
    pose proof (Z.log2_spec (Z.abs n) Hpos) as [Hlo _].
    unfold Float_significandBitCount in *.
    set (k := Z.log2 (Z.abs n)) in *.
    replace k with (24 + (k - 24)) in Hlo by lia.
    replace (k - 23) with (1 + (k - 24)) in Hn by lia.
    rewrite Z.pow_add_r in Hlo, Hn by lia.
    change (2 ^ 1) with 2 in Hn.
    assert (0 < 2 ^ (k - 24)) by (apply Z.pow_pos_nonneg; lia).
    nia.
Qed.

(** A converted integer of [n] bits stays below the next power of two. *)
Lemma Float_init_bound (n : Z) (k : Z) :
  0 <= k -> Z.abs n < 2 ^ k -> Z.abs (Float_value (Float_init n)) <= 2 ^ k.
Proof.
  intros Hk Hn.
  destruct (Z.le_gt_cases (Z.log2 (Z.abs n)) Float_significandBitCount) as [Hs | Hl].
  - rewrite Float_init_exact by (apply log2_small; exact Hs).
    cbn [Float_value]. lia.
  - destruct (Float_init_large n Hl) as (q & r & Hq1 & Hr & Hq & ->).
    set (sh := Z.log2 (Z.abs n) - Float_significandBitCount) in *.
    assert (Hsh : 0 < sh) by (unfold sh; lia).
    assert (Hp : 0 < 2 ^ sh) by (apply Z.pow_pos_nonneg; lia).
    assert (Hlt : Z.log2 (Z.abs n) < k).
    { apply Z.log2_lt_pow2; [| exact Hn].
      destruct (Z.eq_dec (Z.abs n) 0) as [E | E]; [| lia].
      rewrite E in Hl. unfold Float_significandBitCount in Hl. simpl in Hl. lia. }
    assert (Hk' : k = 24 + sh + (k - 24 - sh))
      by lia.
    assert (Hge : 0 <= k - 24 - sh) by (unfold sh, Float_significandBitCount; lia).
    rewrite Hk', !Z.pow_add_r by lia.
    assert (H1 : 1 <= 2 ^ (k - 24 - sh)) by (apply (Z.pow_le_mono_r 2 0); lia).
    rewrite Z.abs_mul.
    assert (Hs : Z.abs (Z.sgn n) <= 1) by lia.
    change (2 ^ 24) with 16777216 in *. change (2 ^ 23) with 8388608 in *.
    destruct ((2 ^ (sh - 1) <? r) || ((2 ^ (sh - 1) =? r) && Z.odd q)).
    + rewrite Z.abs_mul, (Z.abs_eq (q + 1)), (Z.abs_eq (2 ^ sh)) by lia. 
      assert ((q + 1) * 2 ^ sh <= 16777216 * 2 ^ sh) by nia.
      assert (16777216 * 2 ^ sh <= 16777216 * 2 ^ sh * 2 ^ (k - 24 - sh)) by nia.
      nia.
    + rewrite Z.abs_mul, (Z.abs_eq q), (Z.abs_eq (2 ^ sh)) by lia.
      assert (q * 2 ^ sh <= 16777216 * 2 ^ sh) by nia.
      assert (16777216 * 2 ^ sh <= 16777216 * 2 ^ sh * 2 ^ (k - 24 - sh)) by nia.
      nia.
Qed.

End MoreSwiftFacts.

Section Mono.

Lemma Float_init_sandwich (n : Z) :
  0 < n ->
  2 ^ Z.log2 n <= Float_value (Float_init n) <= 2 ^ (Z.log2 n + 1).
Proof.
  intros Hpos.
  pose proof (Z.log2_spec n Hpos) as [Hlo Hhi].
  rewrite <- Z.add_1_r in Hhi.
  split.
  - destruct (Z.le_gt_cases (Z.log2 (Z.abs n)) Float_significandBitCount) as [Hs | Hl].
    + rewrite Float_init_exact by (apply log2_small; exact Hs).
      cbn [Float_value]. lia.
    + destruct (Float_init_large n Hl) as (q & r & Hq1 & Hr & Hq & ->).
      rewrite (Z.abs_eq n) in * by lia.
      set (sh := Z.log2 n - Float_significandBitCount) in *.
      assert (Hsh : 0 < sh) by (unfold sh; lia).
      assert (Hp : 0 < 2 ^ sh) by (apply Z.pow_pos_nonneg; lia).
      replace (Z.log2 n) with (23 + sh) by (unfold sh, Float_significandBitCount; lia).
      rewrite Z.pow_add_r by lia.
      rewrite (Z.sgn_pos n) by lia.
      change (2 ^ 24) with 16777216 in *. change (2 ^ 23) with 8388608 in *.
      destruct ((2 ^ (sh - 1) <? r) || ((2 ^ (sh - 1) =? r) && Z.odd q)); nia.
  - pose proof (Float_init_bound n (Z.log2 n + 1)) as Hb.
    rewrite (Z.abs_eq n) in Hb by lia.
    pose proof (Z.log2_nonneg n).
    specialize (Hb ltac:(lia) Hhi). lia.
Qed.

Lemma Float_init_mono_pos (n m : Z) :
  0 < n -> n <= m ->
  Float_value (Float_init n) <= Float_value (Float_init m).
Proof.
  intros Hn Hnm.
  assert (Hm : 0 < m) by lia.
  pose proof (Z.log2_le_mono n m Hnm) as Hk.
  destruct (Z.eq_dec (Z.log2 n) (Z.log2 m)) as [Ek | Ek].
  - destruct (Z.le_gt_cases (Z.log2 (Z.abs n)) Float_significandBitCount) as [Hs | Hl].
    + assert (Hs' : Z.log2 (Z.abs m) <= Float_significandBitCount)
        by (rewrite (Z.abs_eq m), <- Ek, <- (Z.abs_eq n) by lia; exact Hs).
      rewrite !Float_init_exact by (apply log2_small; assumption).
      exact Hnm.
    + assert (Hl' : Float_significandBitCount < Z.log2 (Z.abs m))
        by (rewrite (Z.abs_eq m), <- Ek, <- (Z.abs_eq n) by lia; exact Hl).
      destruct (Float_init_large n Hl) as (q1 & r1 & Hn1 & Hr1 & Hq1 & ->).
      destruct (Float_init_large m Hl') as (q2 & r2 & Hn2 & Hr2 & Hq2 & ->).
      rewrite (Z.abs_eq n) in * by lia. rewrite (Z.abs_eq m) in * by lia.
      rewrite <- Ek in *.
      set (sh := Z.log2 n - Float_significandBitCount) in *.
      assert (Hsh : 0 < sh) by (unfold sh; lia).
      assert (Hp : 0 < 2 ^ sh) by (apply Z.pow_pos_nonneg; lia).
      rewrite !Z.sgn_pos, !Z.mul_1_l by lia.
      assert (Hq : q1 <= q2) by nia.
      destruct (Z.eq_dec q1 q2) as [Eq | Eq].
      * subst q2. assert (Hr : r1 <= r2) by nia.
        destruct (Z.ltb_spec (2 ^ (sh - 1)) r1) as [H1 | H1];
          destruct (Z.ltb_spec (2 ^ (sh - 1)) r2) as [H2 | H2];
          destruct (Z.eqb_spec (2 ^ (sh - 1)) r1) as [H3 | H3];
          destruct (Z.eqb_spec (2 ^ (sh - 1)) r2) as [H4 | H4];
          destruct (Z.odd q1); cbn [orb andb]; nia.
      * assert (Hlt : q1 + 1 <= q2) by lia.
        destruct ((2 ^ (sh - 1) <? r1) || ((2 ^ (sh - 1) =? r1) && Z.odd q1));
          destruct ((2 ^ (sh - 1) <? r2) || ((2 ^ (sh - 1) =? r2) && Z.odd q2)); nia.
  - pose proof (Float_init_sandwich n Hn) as [_ Hup].
    pose proof (Float_init_sandwich m Hm) as [Hlow _].
    assert (Hpw : 2 ^ (Z.log2 n + 1) <= 2 ^ Z.log2 m)
      by (apply Z.pow_le_mono_r; lia).
    lia.
Qed.

Lemma Float_init_sgn (n : Z) : 0 <= n -> 0 <= Float_value (Float_init n).
Proof.
  intros Hn. destruct (Z.eq_dec n 0) as [-> | Hne]; [simpl; lia |].
  pose proof (Float_init_sandwich n ltac:(lia)) as [Hlo _].
  pose proof (Z.pow_nonneg 2 (Z.log2 n)). lia.
Qed.

(** [Float(_:)] keeps the order of the integers it converts. *)
Lemma Float_init_mono (n m : Z) :
  n <= m -> Float_value (Float_init n) <= Float_value (Float_init m).
Proof.
  intros Hnm.
  destruct (Z.lt_trichotomy n 0) as [Hn | [-> | Hn]].
  - destruct (Z.lt_trichotomy m 0) as [Hm | [-> | Hm]].
    + pose proof (Float_init_mono_pos (- m) (- n) ltac:(lia) ltac:(lia)) as H.
      rewrite !Float_init_opp in H. cbn [Float_value] in H. lia.
    + pose proof (Float_init_sgn (- n) ltac:(lia)) as H.
      rewrite Float_init_opp in H. cbn [Float_value] in H. simpl. lia.
    + pose proof (Float_init_sgn (- n) ltac:(lia)) as H.
      rewrite Float_init_opp in H. cbn [Float_value] in H.
      pose proof (Float_init_sgn m ltac:(lia)). lia.
  - apply (Float_init_sgn m). exact Hnm.
  - apply Float_init_mono_pos; assumption.
Qed.

End Mono.

Section ClientFacts.

Variable indeterminate : Float.

Lemma catch_block_handle_error (expected : option DivByZero) (e : Error) :
  handle_error (Expected_error e) expected = catch_block expected e.
Proof.
  unfold handle_error, catch_block, error.
  unfold bind at 1, ret at 1.
  match goal with |- (let (_, _) := ?k in _) = _ => destruct k as [out c] end.
  reflexivity.
Qed.

Lemma catch_block_boxed (expected : option DivByZero) (c : DivByZero) :
  catch_block expected (mkError (box_error c)) =
    match expected with
    | Some c' =>
        if DivByZero_eqb c c'
        then ([Print (DivByZero_description c)], Normal tt)
        else ([], Abort)
    | None => ([Print (DivByZero_description c)], Normal tt)
    end.
Proof. destruct c, expected as [[] |]; reflexivity. Qed.

Lemma try_division_cases (a b : Z) (expected : option DivByZero) :
  try_division indeterminate a b expected =
    match Swift.division a b with
    | Returned v => ([Printf "result = %f\n" [v]], Normal tt)
    | Thrown c => catch_block expected (mkError (box_error c))
    | Trapped => ([], Abort)
    end.
Proof.
  unfold try_division. rewrite division_wrapper.
  destruct (Swift.division a b) as [v | c |]; try reflexivity.
  unfold SWIFT_RETURN_THUNK_error, throw, bind, try_catch.
  destruct (catch_block expected (mkError (box_error c))) as [out r].
  reflexivity.
Qed.

Lemma check_division_cases (a b : Z) (expected : option DivByZero) :
  check_division indeterminate a b expected =
    match Swift.division a b with
    | Returned v => ([Printf "result = %f\n" [v]], Normal tt)
    | Thrown c => catch_block expected (mkError (box_error c))
    | Trapped => ([], Abort)
    end.
Proof.
  unfold check_division. rewrite division_wrapper.
  destruct (Swift.division a b) as [v | c |]; try reflexivity.
  unfold SWIFT_RETURN_THUNK_error, ret, bind. cbn [has_value].
  rewrite catch_block_handle_error.
  destruct (catch_block expected (mkError (box_error c))) as [out r].
  reflexivity.
Qed.

Lemma division_Thrown_inv (a b : Z) (c : DivByZero) :
  Swift.division a b = Thrown c ->
  b = 0 /\ (c = bothAreZero <-> a = 0).
Proof.
  intros H.
  destruct (Z.eq_dec b 0) as [Hb | Hb].
  - split; [exact Hb |]. subst b.
    destruct (Z.eq_dec a 0) as [Ha | Ha].
    + subst a. rewrite division_zero_zero in H. injection H as <-. tauto.
    + rewrite division_by_zero in H by exact Ha. injection H as <-.
      split; [discriminate | contradiction].
  - rewrite division_nonzero in H by exact Hb.
    destruct (Int_div a b); discriminate.
Qed.

Lemma division_Returned (a b : Z) :
  b <> 0 -> ~ (a = Int_min /\ b = -1) ->
  Swift.division a b = Returned (Float_init (Z.quot a b)).
Proof.
  intros Hb Hov.
  rewrite division_nonzero, Int_div_Some by assumption. reflexivity.
Qed.

Lemma division_Trapped_iff (a b : Z) :
  Swift.division a b = Trapped <-> a = Int_min /\ b = -1.
Proof.
  split.
  - intros H.
    destruct (Z.eq_dec b 0) as [Hb | Hb].
    + subst b. destruct (Z.eq_dec a 0) as [Ha | Ha].
      * subst a. discriminate H.
      * rewrite division_by_zero in H by exact Ha. discriminate H.
    + rewrite division_nonzero in H by exact Hb.
      destruct (Int_div a b) eqn:E; [discriminate |].
      apply Int_div_None_iff in E. tauto.
  - intros [-> ->]. reflexivity.
Qed.

End ClientFacts.

(** *** [division], its wrapper and its clients *)

(** X1: the case thrown tells the operands apart.  [division] throws
    [bothAreZero] exactly when both operands are zero and [divisorIsZero]
    exactly when the divisor is zero and the dividend is not. *)
Theorem division_throws_iff (a b : Z) :
  (Swift.division a b = Thrown bothAreZero <-> a = 0 /\ b = 0) /\
  (Swift.division a b = Thrown divisorIsZero <-> a <> 0 /\ b = 0).
Proof.
  split; split.
  - intros H. destruct (division_Thrown_inv a b _ H) as [Hb Hc].
    split; [apply Hc; reflexivity | exact Hb].
  - intros [-> ->]. reflexivity.
  - intros H. destruct (division_Thrown_inv a b _ H) as [Hb Hc].
    split; [| exact Hb]. intros Ha. apply Hc in Ha. discriminate Ha.
  - intros [Ha ->]. apply division_by_zero. exact Ha.
Qed.

(** X2: on [Int] operands [division] traps for [Int.min] and [-1] and for
    no other pair; put otherwise, it traps exactly when the divisor is not
    zero and the quotient is not an [Int].  The division by zero that [/]
    would trap on is never reached. *)
Theorem division_traps_only_on_overflow (a b : Z) :
  Int_ok a -> Int_ok b ->
  (Swift.division a b = Trapped <-> a = Int_min /\ b = -1) /\
  (Swift.division a b = Trapped <-> b <> 0 /\ ~ Int_ok (Z.quot a b)).
Proof.
  intros Ha Hb. split; [apply division_Trapped_iff |].
  rewrite division_Trapped_iff. split.
  - intros [-> ->]. split; [discriminate | exact (proj2 quot_Int_min_overflows)].
  - intros [Hnz Hq].
    destruct (Z.eq_dec a Int_min) as [Ea | Ea];
      destruct (Z.eq_dec b (-1)) as [Eb | Eb]; try tauto;
      exfalso; apply Hq; apply quot_Int_ok; tauto.
Qed.

Lemma division_traps_only_on_overflow_witness :
  (Int_ok 7 /\ Int_ok (-2)) /\
  (Swift.division 7 (-2) = Trapped <-> 7 = Int_min /\ -2 = -1) /\
  (Swift.division 7 (-2) = Trapped <-> -2 <> 0 /\ ~ Int_ok (Z.quot 7 (-2))).
Proof.
  assert (H7 : Int_ok 7) by (split; discriminate).
  assert (H2 : Int_ok (-2)) by (split; discriminate).
  split; [split; assumption |].
  exact (division_traps_only_on_overflow 7 (-2) H7 H2).
Defined.

(** X3: when the divisor is not zero and the truncated quotient is below
    2^24 in magnitude, the float returned is that quotient, with no
    rounding. *)
Theorem division_exact (a b : Z) :
  b <> 0 -> Z.abs (Z.quot a b) < 2 ^ 24 ->
  Swift.division a b = Returned (mkFloat (Z.quot a b)).
Proof.
  intros Hb Hq.
  assert (Hov : ~ (a = Int_min /\ b = -1)).
  { intros [-> ->]. revert Hq. vm_compute. discriminate. }
  rewrite division_Returned, Float_init_exact by assumption.
  reflexivity.
Qed.

Lemma division_exact_witness :
  (-2 <> 0 /\ Z.abs (Z.quot 7 (-2)) < 2 ^ 24) /\
  Swift.division 7 (-2) = Returned (mkFloat (-3)).
Proof.
  assert (Hb : -2 <> 0) by discriminate.
  assert (Hq : Z.abs (Z.quot 7 (-2)) < 2 ^ 24) by reflexivity.
  split; [split; assumption |].
  exact (division_exact 7 (-2) Hb Hq).
Defined.

(** X4: whenever [division] returns, the value is an integer binary32
    holds, and it is off the truncated quotient by at most 2^-24 of the
    quotient's magnitude. *)
Theorem division_rounding (a b : Z) :
  b <> 0 -> ~ (a = Int_min /\ b = -1) ->
  exists v,
    Swift.division a b = Returned v /\
    binary32_integer (Float_value v) /\
    2 ^ 24 * Z.abs (Float_value v - Z.quot a b) <= Z.abs (Z.quot a b).
Proof.
  intros Hb Hov. exists (Float_init (Z.quot a b)).
  split; [apply division_Returned; assumption |].
  split; [apply Float_init_representable | apply Float_init_relative].
Qed.

Lemma division_rounding_witness :
  (1 <> 0 /\ ~ (16777217 = Int_min /\ 1 = -1)) /\
  exists v,
    Swift.division 16777217 1 = Returned v /\
    binary32_integer (Float_value v) /\
    2 ^ 24 * Z.abs (Float_value v - Z.quot 16777217 1) <= Z.abs (Z.quot 16777217 1).
Proof.
  assert (Hb : 1 <> 0) by discriminate.
  assert (Hov : ~ (16777217 = Int_min /\ 1 = -1)) by (intros [_ H]; discriminate H).
  split; [split; assumption |].
  exact (division_rounding 16777217 1 Hb Hov).
Defined.

(** X5: on [Int] operands the value returned lies within -2^63 .. 2^63: the
    conversion never leaves the finite floats. *)
Theorem division_finite (a b : Z) :
  Int_ok a -> Int_ok b -> b <> 0 -> ~ (a = Int_min /\ b = -1) ->
  exists v,
    Swift.division a b = Returned v /\
    Z.abs (Float_value v) <= 2 ^ 63.
Proof.
  intros Ha Hb Hnz Hov. exists (Float_init (Z.quot a b)).
  split; [apply division_Returned; assumption |].
  pose proof (quot_Int_ok a b Ha Hb Hnz Hov) as [Hlo Hhi].
  unfold Int_min, Int_max, Int_bitWidth in Hlo, Hhi.
  change (2 ^ (64 - 1)) with (2 ^ 63) in Hlo, Hhi.
  destruct (Z.eq_dec (Z.quot a b) (- 2 ^ 63)) as [E | E].
  - rewrite E. vm_compute. discriminate.
  - apply Float_init_bound; lia.
Qed.

Lemma division_finite_witness :
  (Int_ok Int_max /\ Int_ok 1 /\ 1 <> 0 /\ ~ (Int_max = Int_min /\ 1 = -1)) /\
  exists v,
    Swift.division Int_max 1 = Returned v /\
    Z.abs (Float_value v) <= 2 ^ 63.
Proof.
  assert (Ha : Int_ok Int_max) by (split; discriminate).
  assert (Hb : Int_ok 1) by (split; discriminate).
  assert (Hnz : 1 <> 0) by discriminate.
  assert (Hov : ~ (Int_max = Int_min /\ 1 = -1)) by (intros [_ H]; discriminate H).
  split; [exact (conj Ha (conj Hb (conj Hnz Hov))) |].
  exact (division_finite Int_max 1 Ha Hb Hnz Hov).
Defined.

(** X6: a dividend smaller in magnitude than the divisor gives [0.0],
    whatever the signs: the quotient is cut toward zero, not toward minus
    infinity. *)
Theorem division_small_dividend (a b : Z) :
  Z.abs a < Z.abs b ->
  Swift.division a b = Returned (mkFloat 0).
Proof.
  intros Hab.
  assert (Hb : b <> 0) by lia.
  assert (Hq : Z.quot a b = 0).
  { assert (H : Z.abs (Z.quot a b) = 0).
    { rewrite <- Z.quot_abs by exact Hb. apply Z.quot_small. lia. }
    lia. }
  assert (Hov : ~ (a = Int_min /\ b = -1)).
  { intros [-> ->]. revert Hab. vm_compute. discriminate. }
  rewrite division_Returned, Hq by assumption. reflexivity.
Qed.

Lemma division_small_dividend_witness :
  Z.abs (-1) < Z.abs 2 /\ Swift.division (-1) 2 = Returned (mkFloat 0).
Proof.
  assert (H : Z.abs (-1) < Z.abs 2) by reflexivity.
  split; [exact H |].
  exact (division_small_dividend (-1) 2 H).
Defined.



(** X8: for a positive divisor, a larger dividend never gives a smaller
    value, rounding included. *)
Theorem division_monotone (a a' b : Z) :
  0 < b -> a <= a' ->
  exists v v',
    Swift.division a b = Returned v /\
    Swift.division a' b = Returned v' /\
    Float_value v <= Float_value v'.
Proof.
  intros Hb Haa.
  exists (Float_init (Z.quot a b)), (Float_init (Z.quot a' b)).
  split; [apply division_Returned; lia |].
  split; [apply division_Returned; lia |].
  apply Float_init_mono. apply Z.quot_le_mono; assumption.
Qed.

Lemma division_monotone_witness :
  (0 < 2 /\ 4 <= 7) /\
  exists v v',
    Swift.division 4 2 = Returned v /\
    Swift.division 7 2 = Returned v' /\
    Float_value v <= Float_value v'.
Proof.
  assert (Hb : 0 < 2) by reflexivity.
  assert (Haa : 4 <= 7) by discriminate.
  split; [split; assumption |].
  exact (division_monotone 4 7 2 Hb Haa).
Defined.

(** X9: [getMessage] prints the same for two cases only when they are the
    same case. *)
Theorem getMessage_identifies_case (e e' : DivByZero) :
  Cxx.getMessage e = Cxx.getMessage e' <-> e = e'.
Proof.
  split; [| intros ->; reflexivity].
  destruct e, e'; intros H; try reflexivity; discriminate H.
Qed.

(** X10: compiled without exceptions the wrapper never throws; when it
    returns, [has_value()] of the result is true exactly when the divisor is
    not zero; and the process stops inside it only for [Int.min] and [-1]. *)
Theorem expected_result_shape (indeterminate : Float) (a b : Z) :
  match snd (Cxx.division indeterminate NoExceptions a b) with
  | Normal r => has_value r = negb (b =? 0)
  | Throw _ => False
  | Abort => a = Int_min /\ b = -1
  end.
Proof.
  rewrite division_wrapper.
  destruct (Swift.division a b) as [v | c |] eqn:E; cbn.
  - destruct (Z.eqb_spec b 0) as [Hb | Hb]; [| reflexivity].
    exfalso. subst b. destruct (Z.eq_dec a 0) as [Ha | Ha].
    + subst a. discriminate E.
    + rewrite division_by_zero in E by exact Ha. discriminate E.
  - apply division_Thrown_inv in E. destruct E as [-> _]. reflexivity.
  - apply division_Trapped_iff. exact E.
Qed.

(** X11: compiled with exceptions, the wrapper throws a [Swift::Error]
    exactly when the divisor is zero. *)
Theorem exception_iff_zero_divisor (indeterminate : Float) (a b : Z) :
  (exists e, snd (Cxx.division indeterminate Exceptions a b) = Throw e) <-> b = 0.
Proof.
  rewrite division_wrapper. split.
  - intros [e He].
    destruct (Swift.division a b) as [v | c |] eqn:E; try discriminate He.
    apply division_Thrown_inv in E. tauto.
  - intros ->. destruct (Z.eq_dec a 0) as [Ha | Ha].
    + subst a. eexists. reflexivity.
    + rewrite division_by_zero by exact Ha. eexists. reflexivity.
Qed.

(** X12: what the return register holds after Swift has thrown reaches
    neither the wrapper's result nor anything a client block prints or
    decides. *)
Theorem return_register_never_observed (i1 i2 : Float) (mode : Mode) (a b : Z)
    (expected : option DivByZero) :
  Cxx.division i1 mode a b = Cxx.division i2 mode a b /\
  try_division i1 a b expected = try_division i2 a b expected /\
  check_division i1 a b expected = check_division i2 a b expected.
Proof.
  rewrite !try_division_cases, !check_division_cases, !division_wrapper.
  repeat split.
Qed.

(** X13: for any operands and any asserted case, the [try]/[catch] block of
    the first client and the [has_value()] block of the second print the same
    and end the same way. *)
Theorem client_blocks_agree (indeterminate : Float) (a b : Z)
    (expected : option DivByZero) :
  try_division indeterminate a b expected = check_division indeterminate a b expected.
Proof.
  rewrite try_division_cases, check_division_cases. reflexivity.
Qed.

(** X14: no [Swift::Error] leaves a [try] block of the first client,
    whatever the operands and the asserted case. *)
Theorem no_error_escapes_try (indeterminate : Float) (a b : Z)
    (expected : option DivByZero) (e : Error) :
  snd (try_division indeterminate a b expected) <> Throw e.
Proof.
  rewrite try_division_cases.
  destruct (Swift.division a b) as [v | c |]; try discriminate.
  rewrite catch_block_boxed.
  destruct expected as [c' |]; [destruct (DivByZero_eqb c c') |]; discriminate.
Qed.

(** X15: with a zero divisor, a client block that asserts the case [c]
    runs to its end exactly when [division] threw [c], and stops at the
    [assert] otherwise. *)
Theorem client_assert_iff (indeterminate : Float) (a b : Z) (c : DivByZero) :
  b = 0 ->
  (snd (try_division indeterminate a b (Some c)) = Normal tt <->
     Swift.division a b = Thrown c) /\
  (snd (try_division indeterminate a b (Some c)) = Abort <->
     Swift.division a b <> Thrown c).
Proof.
  intros ->. rewrite try_division_cases.
  assert (H : exists c0, Swift.division a 0 = Thrown c0).
  { destruct (Z.eq_dec a 0) as [Ha | Ha].
    - subst a. eexists. reflexivity.
    - rewrite division_by_zero by exact Ha. eexists. reflexivity. }
  destruct H as [c0 ->]. rewrite catch_block_boxed.
  destruct c0, c; cbn; repeat split; intros; try congruence; try discriminate.
Qed.

Lemma client_assert_iff_witness :
  0 = 0 /\
  (snd (try_division (mkFloat 0) 1 0 (Some bothAreZero)) = Normal tt <->
     Swift.division 1 0 = Thrown bothAreZero) /\
  (snd (try_division (mkFloat 0) 1 0 (Some bothAreZero)) = Abort <->
     Swift.division 1 0 <> Thrown bothAreZero).
Proof.
  split; [reflexivity |].
  exact (client_assert_iff (mkFloat 0) 1 0 bothAreZero eq_refl).
Defined.

(** X16: handed a carrier of an error of another domain, the recovery code
    of either client stops at [assert(... .isSome())] and prints nothing. *)
Theorem foreign_error_stops_client (D' : Type) `{SwiftError D'} (d : D')
    (expected : option DivByZero) :
  getTypeMetadata D' <> getTypeMetadata DivByZero ->
  catch_block expected (mkError (box_error d)) = ([], Abort) /\
  handle_error (Expected_error (mkError (box_error d))) expected = ([], Abort).
Proof.
  intros Hne.
  assert (Hc : catch_block expected (mkError (box_error d)) = ([], Abort)).
  { unfold catch_block.
    rewrite (Error_as_other D' DivByZero d) by (intros E; apply Hne; symmetry; exact E).
    reflexivity. }
  split; [exact Hc |].
  rewrite catch_block_handle_error. exact Hc.
Qed.

Lemma foreign_error_stops_client_witness :
  getTypeMetadata UnrelatedDomain <> getTypeMetadata DivByZero /\
  catch_block (Some divisorIsZero) (mkError (box_error unrelatedCase)) = ([], Abort) /\
  handle_error (Expected_error (mkError (box_error unrelatedCase))) (Some divisorIsZero)
    = ([], Abort).
Proof.
  assert (Hne : getTypeMetadata UnrelatedDomain <> getTypeMetadata DivByZero)
    by discriminate.
  split; [exact Hne |].
  exact (foreign_error_stops_client UnrelatedDomain unrelatedCase
           (Some divisorIsZero) Hne).
Defined.

(** The clients and the README examples are the blocks above, run one after
    the other on the literals of the sources. *)
Lemma clients_are_their_blocks (indeterminate : Float) :
  main_exceptions indeterminate =
    (printf "Good example:\n" [] ;;;
     try_division indeterminate 1 0 (Some divisorIsZero) ;;;
     try_division indeterminate 0 0 (Some bothAreZero) ;;;
     try_division indeterminate 4 2 None ;;;
     ret 0) /\
  main_expected indeterminate =
    (printf "Runnnig expected example:\n" [] ;;;
     check_division indeterminate 1 0 (Some divisorIsZero) ;;;
     check_division indeterminate 0 0 (Some bothAreZero) ;;;
     check_division indeterminate 4 2 None ;;;
     ret 0) /\
  main_readme_exceptions indeterminate =
    (try_division indeterminate 0 0 (Some bothAreZero) ;;;
     try_division indeterminate 4 2 None ;;;
     ret 0) /\
  main_readme_expected indeterminate =
    (check_division indeterminate 1 0 (Some divisorIsZero) ;;;
     check_division indeterminate 4 2 None ;;;
     ret 0).
Proof. repeat split. Qed.

(** X17: the two clients and the two examples of README.md run to
    [return 0] with no assertion failing; the clients print the same three
    lines after their banner, and each README example the two lines of its
    two calls. *)
Theorem clients_run (indeterminate : Float) :
  main_exceptions indeterminate =
    ([Printf "Good example:\n" []; Print "divisorIsZero"; Print "bothAreZero";
      Printf "result = %f\n" [mkFloat 2]], Normal 0) /\
  main_expected indeterminate =
    ([Printf "Runnnig expected example:\n" []; Print "divisorIsZero";
      Print "bothAreZero"; Printf "result = %f\n" [mkFloat 2]], Normal 0) /\
  main_readme_exceptions indeterminate =
    ([Print "bothAreZero"; Printf "result = %f\n" [mkFloat 2]], Normal 0) /\
  main_readme_expected indeterminate =
    ([Print "divisorIsZero"; Printf "result = %f\n" [mkFloat 2]], Normal 0).
Proof. repeat split. Qed.
